(** * SafeDownload: the sprint burndown generator

    A shallow embedding of [scripts/generate_burndown.py]: the sprint data
    model, the ideal and the actual burndown series, and the geometry of the
    SVG chart, followed by the properties of the burndown engine.

    Conventions of the embedding.
    - A Python [int] is a [Z]. A Python [float] is an exact rational [Q]:
      binary64 rounding is not modelled, so [total * day / days] is the exact
      quotient, and [round(x, 1)] rounds that exact value to tenths, ties to
      even, as CPython's correctly rounded [round] does on the float's value.
    - A Python [str] is a [string] of ASCII characters.
    - A call that may raise returns a [result]; [Raise e] is the exception.
    - [datetime] values carry only the calendar date: every datetime of the
      script comes from [strptime(_, "%Y-%m-%d")] and is at midnight, and
      [datetime.now()] is only ever formatted with ["%Y-%m-%d"]. *)

From Stdlib Require Import ZArith QArith Lia List String Ascii Bool Sorted FinFun.
From stdpp Require Import gmap strings.
Import ListNotations.

Open Scope Z_scope.

(** ** The Python runtime the script relies on *)

Module Py.

Inductive exn : Type :=
  | ZeroDivisionError
  | ValueError
  | KeyError
  | OverflowError.

Inductive result (A : Type) : Type :=
  | Ok (a : A)
  | Raise (e : exn).

Arguments Ok {A} a.
Arguments Raise {A} e.

Definition bind {A B : Type} (m : result A) (k : A -> result B) : result B :=
  match m with
  | Ok a => k a
  | Raise e => Raise e
  end.

(** A [for] loop that builds a list and stops at the first exception. *)
Fixpoint for_each {A B : Type} (body : A -> result B) (xs : list A)
  : result (list B) :=
  match xs with
  | [] => Ok []
  | x :: rest =>
      bind (body x) (fun y =>
      bind (for_each body rest) (fun ys => Ok (y :: ys)))
  end.

(** [a / b] on two ints: true division. *)
Definition truediv (a b : Z) : result Q :=
  if b =? 0 then Raise ZeroDivisionError
  else Ok (inject_Z a / inject_Z b)%Q.

(** The integer nearest to [x], ties to the even one. *)
Definition round_half_even (x : Q) : Z :=
  let n := Qnum x in
  let d := Z.pos (Qden x) in
  let q := n / d in
  match 2 * (n mod d) ?= d with
  | Lt => q
  | Gt => q + 1
  | Eq => if Z.even q then q else q + 1
  end.

(** [round(x, 1)]: the number of tenths nearest to [x], as a decimal. *)
Definition round1 (x : Q) : Q := (round_half_even (x * 10) # 10)%Q.

(** [range(start, stop, step)] for a positive [step]; the script never
    passes another one ([range(n)] is [range(0, n, 1)]). *)
Definition range (start stop step : Z) : list Z :=
  let n := if start <? stop then (stop - start - 1) / step + 1 else 0 in
  map (fun i => start + Z.of_nat i * step) (seq 0 (Z.to_nat n)).

(** [sum(...)] of ints. *)
Definition sum (xs : list Z) : Z := fold_left Z.add xs 0.

(** [str.lower] on ASCII text. *)
Definition lower_ascii (c : ascii) : ascii :=
  let n := nat_of_ascii c in
  if ((65 <=? n) && (n <=? 90))%nat then ascii_of_nat (n + 32) else c.

Fixpoint lower (s : string) : string :=
  match s with
  | EmptyString => EmptyString
  | String c r => String (lower_ascii c) (lower r)
  end.

(** [s1 <= s2] on strings: lexicographic on code points. *)
Definition str_le (s1 s2 : string) : bool := String.leb s1 s2.

(** Truthiness of an optional string: [None] and [""] are false. *)
Definition truthy (o : option string) : bool :=
  match o with
  | Some (String _ _) => true
  | _ => false
  end.

End Py.

Notation "'let*' x ':=' m 'in' k" := (Py.bind m (fun x => k))
  (at level 10, x name, m at level 100, k at level 200).

(** ** [datetime]: the proleptic Gregorian calendar of the standard library *)

Module Calendar.

Record datetime : Type := mk_datetime { year : Z; month : Z; day : Z }.

Definition MINYEAR : Z := 1.
Definition MAXYEAR : Z := 9999.
Definition MAXORDINAL : Z := 3652059.

Definition DAYS_IN_MONTH (m : Z) : Z :=
  match m with
  | 1 => 31 | 2 => 28 | 3 => 31 | 4 => 30 | 5 => 31 | 6 => 30
  | 7 => 31 | 8 => 31 | 9 => 30 | 10 => 31 | 11 => 30 | 12 => 31
  | _ => -1
  end.

Definition DAYS_BEFORE_MONTH (m : Z) : Z :=
  match m with
  | 1 => 0 | 2 => 31 | 3 => 59 | 4 => 90 | 5 => 120 | 6 => 151
  | 7 => 181 | 8 => 212 | 9 => 243 | 10 => 273 | 11 => 304 | 12 => 334
  | _ => -1
  end.

Definition is_leap (y : Z) : bool :=
  (y mod 4 =? 0) && (negb (y mod 100 =? 0) || (y mod 400 =? 0)).

Definition days_before_year (y : Z) : Z :=
  let y := y - 1 in
  y * 365 + y / 4 - y / 100 + y / 400.

Definition days_in_month (y m : Z) : Z :=
  if (m =? 2) && is_leap y then 29 else DAYS_IN_MONTH m.

Definition days_before_month (y m : Z) : Z :=
  DAYS_BEFORE_MONTH m + (if (2 <? m) && is_leap y then 1 else 0).

Definition ymd2ord (y m d : Z) : Z :=
  days_before_year y + days_before_month y m + d.

Definition DI400Y : Z := 146097.
Definition DI100Y : Z := 36524.
Definition DI4Y : Z := 1461.

Definition ord2ymd (n : Z) : datetime :=
  let n := n - 1 in
  let n400 := n / DI400Y in
  let n := n mod DI400Y in
  let y := n400 * 400 + 1 in
  let n100 := n / DI100Y in
  let n := n mod DI100Y in
  let n4 := n / DI4Y in
  let n := n mod DI4Y in
  let n1 := n / 365 in
  let n := n mod 365 in
  let y := y + n100 * 100 + n4 * 4 + n1 in
  if (n1 =? 4) || (n100 =? 4) then mk_datetime (y - 1) 12 31
  else
    let leapyear := (n1 =? 3) && (negb (n4 =? 24) || (n100 =? 3)) in
    let m := Z.shiftr (n + 50) 5 in
    let preceding :=
      DAYS_BEFORE_MONTH m + (if (2 <? m) && leapyear then 1 else 0) in
    if n <? preceding then
      let m := m - 1 in
      let preceding :=
        preceding
        - (DAYS_IN_MONTH m + (if (m =? 2) && leapyear then 1 else 0)) in
      mk_datetime y m (n - preceding + 1)
    else mk_datetime y m (n - preceding + 1).

(** What the constructor of [datetime] checks. *)
Definition valid (d : datetime) : bool :=
  (MINYEAR <=? year d) && (year d <=? MAXYEAR)
  && (1 <=? month d) && (month d <=? 12)
  && (1 <=? day d) && (day d <=? days_in_month (year d) (month d)).

Definition toordinal (d : datetime) : Z := ymd2ord (year d) (month d) (day d).

(** [(a - b).days] for two datetimes at midnight. *)
Definition sub_days (a b : datetime) : Z := toordinal a - toordinal b.

(** [d + timedelta(days=n)]. *)
Definition add_days (d : datetime) (n : Z) : Py.result datetime :=
  let o := toordinal d + n in
  if (0 <? o) && (o <=? MAXORDINAL) then Py.Ok (ord2ymd o)
  else Py.Raise Py.OverflowError.

(** [a <= b] on datetimes: the fields compared in order. *)
Definition compare (a b : datetime) : comparison :=
  match year a ?= year b with
  | Eq => match month a ?= month b with
          | Eq => day a ?= day b
          | c => c
          end
  | c => c
  end.

Definition leb (a b : datetime) : bool :=
  match compare a b with Gt => false | _ => true end.

Definition ltb (a b : datetime) : bool :=
  match compare a b with Lt => true | _ => false end.

(** Decimal digits and zero-padded fields. *)
Definition digit (n : Z) : ascii := ascii_of_nat (48 + Z.to_nat n).

Definition pad2 (n : Z) (rest : string) : string :=
  String (digit (n / 10)) (String (digit (n mod 10)) rest).

Definition pad4 (n : Z) (rest : string) : string :=
  String (digit (n / 1000)) (String (digit (n / 100 mod 10))
    (String (digit (n / 10 mod 10)) (String (digit (n mod 10)) rest))).

Definition dash : ascii := ascii_of_nat 45.

(** [d.strftime("%Y-%m-%d")], the year padded to four digits (the form
    [%Y] reads back; a C library that prints years below 1000 unpadded is
    not modelled). *)
Definition strftime (d : datetime) : string :=
  pad4 (year d) (String dash (pad2 (month d) (String dash
    (pad2 (day d) EmptyString)))).

Definition is_digit (c : ascii) : bool :=
  let n := nat_of_ascii c in ((48 <=? n) && (n <=? 57))%nat.

Definition in_range (lo hi : nat) (c : ascii) : bool :=
  let n := nat_of_ascii c in ((48 + lo <=? n) && (n <=? 48 + hi))%nat.

Definition digit_val (c : ascii) : Z := Z.of_nat (nat_of_ascii c) - 48.

(** The directive [%Y]: the pattern [\d\d\d\d], on ASCII digits. *)
Definition match_Y (s : string) : option (Z * string) :=
  match s with
  | String a (String b (String c (String d r))) =>
      if is_digit a && is_digit b && is_digit c && is_digit d
      then Some (digit_val a * 1000 + digit_val b * 100
                 + digit_val c * 10 + digit_val d, r)
      else None
  | _ => None
  end.

(** The directive [%m]: the pattern [1[0-2]|0[1-9]|[1-9]]. *)
Definition match_m (s : string) : option (Z * string) :=
  match s with
  | String a r =>
      let two :=
        match r with
        | String b r' =>
            if in_range 1 1 a && in_range 0 2 b
            then Some (10 + digit_val b, r')
            else if in_range 0 0 a && in_range 1 9 b
            then Some (digit_val b, r')
            else None
        | EmptyString => None
        end in
      match two with
      | Some res => Some res
      | None => if in_range 1 9 a then Some (digit_val a, r) else None
      end
  | EmptyString => None
  end.

(** The directive [%d]: the pattern [3[01]|[12]\d|0[1-9]|[1-9]| [1-9]]. *)
Definition match_d (s : string) : option (Z * string) :=
  match s with
  | String a r =>
      let two :=
        match r with
        | String b r' =>
            if in_range 3 3 a && in_range 0 1 b
            then Some (30 + digit_val b, r')
            else if in_range 1 2 a && is_digit b
            then Some (digit_val a * 10 + digit_val b, r')
            else if in_range 0 0 a && in_range 1 9 b
            then Some (digit_val b, r')
            else None
        | EmptyString => None
        end in
      match two with
      | Some res => Some res
      | None =>
          if in_range 1 9 a then Some (digit_val a, r)
          else
            match r with
            | String b r' =>
                if (nat_of_ascii a =? 32)%nat && in_range 1 9 b
                then Some (digit_val b, r')
                else None
            | EmptyString => None
            end
      end
  | EmptyString => None
  end.

Definition expect (c : ascii) (s : string) : option string :=
  match s with
  | String a r => if Ascii.eqb a c then Some r else None
  | EmptyString => None
  end.

(** [datetime.strptime(s, "%Y-%m-%d")]: the format's pattern must match a
    prefix of [s], nothing may remain, and the fields must name a day of the
    calendar; everything else is a [ValueError]. *)
Definition strptime (s : string) : Py.result datetime :=
  let parsed :=
    match match_Y s with
    | Some (y, s1) =>
        match expect dash s1 with
        | Some s2 =>
            match match_m s2 with
            | Some (m, s3) =>
                match expect dash s3 with
                | Some s4 =>
                    match match_d s4 with
                    | Some (d, EmptyString) => Some (mk_datetime y m d)
                    | _ => None
                    end
                | None => None
                end
            | None => None
            end
        | None => None
        end
    | None => None
    end in
  match parsed with
  | Some d => if valid d then Py.Ok d else Py.Raise Py.ValueError
  | None => Py.Raise Py.ValueError
  end.

(** The month and the day of day number [n] (from 0) of a year: the last
    steps of [ord2ymd], on their own. *)
Definition month_day (leapyear : bool) (n : Z) : Z * Z :=
  let m := Z.shiftr (n + 50) 5 in
  let preceding :=
    DAYS_BEFORE_MONTH m + (if (2 <? m) && leapyear then 1 else 0) in
  if n <? preceding then
    let m := m - 1 in
    let preceding :=
      preceding
      - (DAYS_IN_MONTH m + (if (m =? 2) && leapyear then 1 else 0)) in
    (m, n - preceding + 1)
  else (m, n - preceding + 1).

(** What [month_day] has to satisfy, as a test. *)
Definition month_day_ok (leapyear : bool) (n : Z) : bool :=
  let '(m, dd) := month_day leapyear n in
  (1 <=? m) && (m <=? 12) && (1 <=? dd)
  && (dd <=? DAYS_IN_MONTH m + (if (m =? 2) && leapyear then 1 else 0))
  && (DAYS_BEFORE_MONTH m + (if (2 <? m) && leapyear then 1 else 0) + dd
      =? n + 1).

(** Lexicographic combination of two comparisons. *)
Definition lex (c : comparison) (rest : comparison) : comparison :=
  match c with Eq => rest | _ => c end.

End Calendar.

(** ** [scripts/generate_burndown.py] *)

Import Py.

Module Task.

Record t : Type := mk {
  id : string;
  title : string;
  status : string;
  story_points : Z;
  completed_date : option string
}.

Definition is_complete (self : t) : bool :=
  let s := lower (status self) in
  String.eqb s "done" || String.eqb s "complete" || String.eqb s "completed".

End Task.

Module Sprint.

Record t : Type := mk {
  id : string;
  name : string;
  start_date : Calendar.datetime;
  end_date : Calendar.datetime;
  goals : list string;
  tasks : list Task.t
}.

Definition total_points (self : t) : Z :=
  sum (map Task.story_points (tasks self)).

Definition completed_points (self : t) : Z :=
  sum (map Task.story_points (List.filter Task.is_complete (tasks self))).

Definition remaining_points (self : t) : Z :=
  total_points self - completed_points self.

Definition duration_days (self : t) : Z :=
  Calendar.sub_days (end_date self) (start_date self).

Definition progress_percent (self : t) : result Q :=
  if total_points self =? 0 then Ok 0%Q
  else
    let* q := truediv (completed_points self) (total_points self) in
    Ok (q * 100)%Q.

End Sprint.

(** The mapping [yaml.safe_load] returns for a task entry and for a sprint
    file; an absent key is [None]. *)
Module TaskData.

Record t : Type := mk {
  id : option string;
  title : option string;
  status : option string;
  story_points : option Z;
  completed_date : option string
}.

End TaskData.

Module SprintData.

Record t : Type := mk {
  id : option string;
  name : option string;
  start_date : option string;
  end_date : option string;
  goals : option (list string);
  tasks : option (list TaskData.t)
}.

End SprintData.





(** A point of a burndown series: the dict with keys [day], [date] and
    [remaining]; [A] is the type of the remaining work. *)
Record BurndownPoint (A : Type) : Type := mk_point {
  day : Z;
  date : string;
  remaining : A
}.

Arguments mk_point {A} day date remaining.
Arguments day {A} _.
Arguments date {A} _.
Arguments remaining {A} _.

Definition ideal_point (sprint : Sprint.t) (day : Z)
  : result (BurndownPoint Q) :=
  let total := Sprint.total_points sprint in
  let days := Sprint.duration_days sprint in
  let* date := Calendar.add_days (Sprint.start_date sprint) day in
  let* remaining :=
    if 0 <? days then
      let* q := truediv (total * day) days in Ok (inject_Z total - q)%Q
    else Ok 0%Q in
  Ok (mk_point day (Calendar.strftime date) (round1 remaining)).

Definition calculate_ideal_burndown (sprint : Sprint.t)
  : result (list (BurndownPoint Q)) :=
  for_each (ideal_point sprint)
    (range 0 (Sprint.duration_days sprint + 1) 1).

(** The first loop of [calculate_actual_burndown]: points completed per
    completion date. *)
Definition add_completion (completions_by_date : gmap string Z)
  (task : Task.t) : gmap string Z :=
  if Task.is_complete task && truthy (Task.completed_date task) then
    match Task.completed_date task with
    | Some date =>
        <[date := default 0 (completions_by_date !! date)
                  + Task.story_points task]> completions_by_date
    | None => completions_by_date
    end
  else completions_by_date.

Definition group_completions (tasks : list Task.t) : gmap string Z :=
  fold_left add_completion tasks ∅.

(** The second loop, with the running [remaining] as its state. *)
Fixpoint actual_loop (start_date : Calendar.datetime)
  (completions_by_date : gmap string Z) (days : list Z) (remaining : Z)
  : result (list (BurndownPoint Z)) :=
  match days with
  | [] => Ok []
  | day :: rest =>
      let* date := Calendar.add_days start_date day in
      let date_str := Calendar.strftime date in
      let remaining :=
        match completions_by_date !! date_str with
        | Some done => remaining - done
        | None => remaining
        end in
      let* points := actual_loop start_date completions_by_date rest remaining in
      Ok (mk_point day date_str (Z.max 0 remaining) :: points)
  end.

Definition calculate_actual_burndown (sprint : Sprint.t)
  : result (list (BurndownPoint Z)) :=
  actual_loop (Sprint.start_date sprint)
    (group_completions (Sprint.tasks sprint))
    (range 0 (Sprint.duration_days sprint + 1) 1)
    (Sprint.total_points sprint).

(** *** The chart *)

Definition width : Z := 600.
Definition height : Z := 400.
Definition margin_top : Z := 40.
Definition margin_right : Z := 40.
Definition margin_bottom : Z := 60.
Definition margin_left : Z := 60.
Definition chart_width : Z := width - margin_left - margin_right.
Definition chart_height : Z := height - margin_top - margin_bottom.

Definition x_scale (sprint : Sprint.t) : result Q :=
  let max_days := Sprint.duration_days sprint in
  if 0 <? max_days then truediv chart_width max_days else Ok 0%Q.

Definition y_scale (sprint : Sprint.t) : result Q :=
  let max_points := Sprint.total_points sprint in
  if 0 <? max_points then truediv chart_height max_points else Ok 0%Q.

(** The coordinates a path gives to the point [(day, remaining)]. *)
Definition point_x (xs : Q) (day : Z) : Q :=
  (inject_Z margin_left + inject_Z day * xs)%Q.

Definition point_y (max_points : Z) (ys : Q) (remaining : Q) : Q :=
  (inject_Z margin_top + (inject_Z max_points - remaining) * ys)%Q.

Definition path_points {A : Type} (num : A -> Q) (max_points : Z) (xs ys : Q)
  (points : list (BurndownPoint A)) : list (Q * Q) :=
  map (fun p => (point_x xs (day p), point_y max_points ys (num (remaining p))))
      points.

Definition actual_filtered (today : string) (actual : list (BurndownPoint Z))
  : list (BurndownPoint Z) :=
  List.filter (fun p => str_le (date p) today) actual.

Definition y_step (max_points : Z) : Z := Z.max 1 (max_points / 5).

Definition y_ticks (max_points : Z) : list Z :=
  range 0 (max_points + 1) (y_step max_points).

(** The drawn parts of the document [generate_svg_chart] returns. A path is
    the list of the coordinates its [d] attribute joins with [M] and [L]; a
    tick label is its [y] coordinate and the number it prints; [None] is an
    element left out. The text of the numbers, the title, the x-axis labels,
    the legend and the colours are not modelled. *)
Record Svg : Type := mk_svg {
  grid_lines : list Q;
  y_labels : list (Q * Z);
  ideal_path : list (Q * Q);
  actual_path : option (list (Q * Q))
}.

(** [generate_svg_chart]; [now] is what [datetime.now()] returns. *)
Definition generate_svg_chart (now : Calendar.datetime) (sprint : Sprint.t)
  (ideal : list (BurndownPoint Q)) (actual : list (BurndownPoint Z))
  : result Svg :=
  let max_points := Sprint.total_points sprint in
  let* xs := x_scale sprint in
  let* ys := y_scale sprint in
  let ideal_path := path_points (fun r => r) max_points xs ys ideal in
  let today := Calendar.strftime now in
  let filtered := actual_filtered today actual in
  let actual_path :=
    match filtered with
    | [] => None
    | _ :: _ => Some (path_points inject_Z max_points xs ys filtered)
    end in
  let ticks := y_ticks max_points in
  let y_labels :=
    map (fun points =>
           ((point_y max_points ys (inject_Z points) + 4)%Q, points)) ticks in
  let grid_lines :=
    map (fun points => point_y max_points ys (inject_Z points)) ticks in
  Ok (mk_svg grid_lines y_labels ideal_path actual_path).

(** The pipeline of [main] for one sprint: both series, then the chart. *)
Definition render_chart (now : Calendar.datetime) (sprint : Sprint.t)
  : result Svg :=
  let* ideal := calculate_ideal_burndown sprint in
  let* actual := calculate_actual_burndown sprint in
  generate_svg_chart now sprint ideal actual.

(** *** Vocabulary of the statements *)

(** The points of the completed tasks dated [date]. *)
Definition completed_on (tasks : list Task.t) (date : string) : Z :=
  sum (map Task.story_points
         (List.filter
            (fun t => Task.is_complete t
                      && match Task.completed_date t with
                         | Some d => String.eqb d date
                         | None => false
                         end)
            tasks)).

(** The step of the second loop: what is left after the day dated [date]. *)
Definition after_day (m : gmap string Z) (date : string) (remaining : Z) : Z :=
  match m !! date with
  | Some done => remaining - done
  | None => remaining
  end.

(** The value of the ideal line on day [day], before rounding. *)
Definition ideal_value (total days day : Z) : Q :=
  (inject_Z total - inject_Z (total * day) / inject_Z days)%Q.

(** The date a point is labelled with is on or before [now]. *)
Definition on_or_before {A : Type} (now : Calendar.datetime)
  (p : BurndownPoint A) : bool :=
  match Calendar.strptime (date p) with
  | Ok dt => Calendar.leb dt now
  | Raise _ => false
  end.

(** *** Sample sprints *)

Definition ymd (y m d : Z) : Calendar.datetime := Calendar.mk_datetime y m d.

Definition task_A : Task.t := Task.mk "A" "Task A" "done" 3 (Some "2025-01-02").
Definition task_B : Task.t := Task.mk "B" "Task B" "done" 2 (Some "2025-01-04").

Definition sprint_example : Sprint.t :=
  Sprint.mk "sprint-01" "Sprint 1" (ymd 2025 1 1) (ymd 2025 1 5) [] [task_A; task_B].

(** A sprint that ends before it starts. *)
Definition sprint_reversed : Sprint.t :=
  Sprint.mk "sprint-02" "Reversed" (ymd 2025 1 5) (ymd 2025 1 1) [] [task_A].

(** One pending task of nine points. *)
Definition sprint_nine : Sprint.t :=
  Sprint.mk "sprint-03" "Nine points" (ymd 2025 1 1) (ymd 2025 1 5) []
    [Task.mk "A" "Task A" "pending" 9 None].


(** A completed task of weight -3. *)
Definition sprint_negative : Sprint.t :=
  Sprint.mk "sprint-06" "Negative weight" (ymd 2025 1 1) (ymd 2025 1 5) []
    [ Task.mk "A" "Task A" "pending" 5 None;
      Task.mk "B" "Task B" "done" (-3) (Some "2025-01-02") ].

(** Task A is completed on the start date. *)
Definition sprint_day0 : Sprint.t :=
  Sprint.mk "sprint-07" "Done on the first day" (ymd 2025 1 1) (ymd 2025 1 5) []
    [ Task.mk "A" "Task A" "done" 3 (Some "2025-01-01"); task_B ].

(** A negative total. *)
Definition sprint_negative_total : Sprint.t :=
  Sprint.mk "sprint-08" "Negative total" (ymd 2025 1 1) (ymd 2025 1 5) []
    [Task.mk "A" "Task A" "pending" (-5) None].


(** *** Proof automation *)

(** Case analysis on a month number known to lie in 1..12. *)
Ltac month_cases m :=
  let H := fresh "Hm" in
  assert (H : m = 1 \/ m = 2 \/ m = 3 \/ m = 4 \/ m = 5 \/ m = 6 \/ m = 7
              \/ m = 8 \/ m = 9 \/ m = 10 \/ m = 11 \/ m = 12) by lia;
  repeat (destruct H as [H | H]); subst m.

(** * Properties *)

(** ** The calendar *)

Module CalendarFacts.
Import Calendar.

Lemma is_leap_spec y :
  is_leap y = true <-> (y mod 4 = 0 /\ (y mod 100 <> 0 \/ y mod 400 = 0)).
Proof.
  unfold is_leap.
  rewrite andb_true_iff, orb_true_iff, negb_true_iff, !Z.eqb_eq, Z.eqb_neq.
  tauto.
Qed.

Lemma days_before_year_succ y :
  days_before_year (y + 1)
  = days_before_year y + 365 + (if is_leap y then 1 else 0).
Proof.
  unfold days_before_year.
  destruct (is_leap y) eqn:E.
  - apply is_leap_spec in E. Z.div_mod_to_equations. lia.
  - assert (H : ~ (y mod 4 = 0 /\ (y mod 100 <> 0 \/ y mod 400 = 0))).
    { rewrite <- is_leap_spec, E. discriminate. }
    Z.div_mod_to_equations. lia.
Qed.

Lemma days_before_year_mono y1 y2 :
  y1 <= y2 -> days_before_year y1 <= days_before_year y2.
Proof.
  unfold days_before_year. intros H. Z.div_mod_to_equations. lia.
Qed.

Lemma valid_spec d :
  valid d = true <->
  (1 <= year d <= 9999 /\ 1 <= month d <= 12
   /\ 1 <= day d <= days_in_month (year d) (month d)).
Proof.
  unfold valid, MINYEAR, MAXYEAR.
  rewrite !andb_true_iff, !Z.leb_le. tauto.
Qed.

(** A day of month [m] comes before the first day of month [m + 1]. *)
Lemma days_before_month_succ y m :
  1 <= m <= 11 ->
  days_before_month y (m + 1) = days_before_month y m + days_in_month y m.
Proof.
  intros Hm. unfold days_before_month, days_in_month.
  month_cases m; try lia; destruct (is_leap y); reflexivity.
Qed.

Lemma days_in_month_pos y m : 1 <= m <= 12 -> 28 <= days_in_month y m <= 31.
Proof.
  intros Hm. unfold days_in_month.
  month_cases m; destruct (is_leap y); simpl; lia.
Qed.

Lemma days_before_month_mono y m1 m2 :
  1 <= m1 -> m1 < m2 -> m2 <= 12 ->
  days_before_month y m1 + days_in_month y m1 <= days_before_month y m2.
Proof.
  intros H1 H2 H3. unfold days_before_month, days_in_month.
  month_cases m1; month_cases m2; try lia; destruct (is_leap y); simpl; lia.
Qed.

Lemma days_before_month_range y m :
  1 <= m <= 12 ->
  0 <= days_before_month y m /\
  days_before_month y m + days_in_month y m
  <= 365 + (if is_leap y then 1 else 0).
Proof.
  intros Hm. unfold days_before_month, days_in_month.
  month_cases m; destruct (is_leap y); simpl; lia.
Qed.

Lemma toordinal_bounds d :
  valid d = true ->
  days_before_year (year d) < toordinal d <= days_before_year (year d + 1).
Proof.
  intros Hv. apply valid_spec in Hv. destruct Hv as (Hy & Hm & Hd).
  unfold toordinal, ymd2ord. rewrite days_before_year_succ.
  pose proof (days_before_month_range (year d) (month d) Hm). lia.
Qed.

Lemma toordinal_range d :
  valid d = true -> 1 <= toordinal d <= MAXORDINAL.
Proof.
  intros Hv. pose proof (toordinal_bounds d Hv) as Hb.
  apply valid_spec in Hv. destruct Hv as (Hy & _).
  pose proof (days_before_year_mono 1 (year d) ltac:(lia)) as H1.
  pose proof (days_before_year_mono (year d + 1) 10000 ltac:(lia)) as H2.
  change (days_before_year 1) with 0 in H1.
  change (days_before_year 10000) with 3652059 in H2.
  unfold MAXORDINAL. lia.
Qed.

(** The ordinal orders valid dates as their fields do. *)
Lemma toordinal_compare a b :
  valid a = true -> valid b = true ->
  (toordinal a ?= toordinal b) = compare a b.
Proof.
  intros Ha Hb.
  pose proof (toordinal_bounds a Ha) as Ba.
  pose proof (toordinal_bounds b Hb) as Bb.
  apply valid_spec in Ha, Hb.
  destruct Ha as (Hya & Hma & Hda), Hb as (Hyb & Hmb & Hdb).
  unfold compare.
  destruct (Z.compare_spec (year a) (year b)) as [Ey | Ly | Ly].
  - destruct (Z.compare_spec (month a) (month b)) as [Em | Lm | Lm].
    + unfold toordinal, ymd2ord. rewrite Ey, Em.
      destruct (Z.compare_spec (day a) (day b));
        [apply Z.compare_eq_iff | apply Z.compare_lt_iff
        | apply Z.compare_gt_iff]; lia.
    + apply Z.compare_lt_iff. unfold toordinal, ymd2ord. rewrite Ey.
      pose proof (days_before_month_mono (year b) (month a) (month b)
                    ltac:(lia) Lm ltac:(lia)).
      rewrite Ey in Hda. lia.
    + apply Z.compare_gt_iff. unfold toordinal, ymd2ord. rewrite Ey.
      pose proof (days_before_month_mono (year b) (month b) (month a)
                    ltac:(lia) Lm ltac:(lia)).
      lia.
  - apply Z.compare_lt_iff.
    pose proof (days_before_year_mono (year a + 1) (year b) ltac:(lia)). lia.
  - apply Z.compare_gt_iff.
    pose proof (days_before_year_mono (year b + 1) (year a) ltac:(lia)). lia.
Qed.

Lemma compare_eq a b : compare a b = Eq -> a = b.
Proof.
  unfold compare. destruct a as [ya ma da], b as [yb mb db]. simpl.
  destruct (Z.compare_spec ya yb); try discriminate.
  destruct (Z.compare_spec ma mb); try discriminate.
  intros Hd. apply Z.compare_eq in Hd. congruence.
Qed.

Lemma toordinal_inj a b :
  valid a = true -> valid b = true -> toordinal a = toordinal b -> a = b.
Proof.
  intros Ha Hb E. apply compare_eq.
  rewrite <- toordinal_compare by assumption. now apply Z.compare_eq_iff.
Qed.

Lemma month_day_ok_all leapyear n :
  0 <= n <= 364 -> month_day_ok leapyear n = true.
Proof.
  intros Hn.
  assert (Hall : forallb (fun i => month_day_ok true (Z.of_nat i)
                                   && month_day_ok false (Z.of_nat i))
                   (seq 0 365) = true) by (vm_compute; reflexivity).
  rewrite forallb_forall in Hall.
  specialize (Hall (Z.to_nat n)).
  rewrite Z2Nat.id in Hall by lia.
  assert (Hin : In (Z.to_nat n) (seq 0 365)) by (apply in_seq; lia).
  apply Hall in Hin. apply andb_true_iff in Hin.
  destruct leapyear; tauto.
Qed.

Lemma is_leap_cycle n400 n100 n4 n1 :
  0 <= n100 <= 3 -> 0 <= n4 <= 24 -> 0 <= n1 <= 3 ->
  is_leap (n400 * 400 + 1 + n100 * 100 + n4 * 4 + n1)
  = (n1 =? 3) && (negb (n4 =? 24) || (n100 =? 3)).
Proof.
  intros H100 H4 H1.
  destruct (is_leap _) eqn:E.
  - apply is_leap_spec in E. symmetry.
    rewrite andb_true_iff, orb_true_iff, negb_true_iff, !Z.eqb_eq, Z.eqb_neq.
    Z.div_mod_to_equations. lia.
  - symmetry. apply not_true_is_false. intros C.
    rewrite andb_true_iff, orb_true_iff, negb_true_iff, !Z.eqb_eq, Z.eqb_neq in C.
    assert (L : is_leap (n400 * 400 + 1 + n100 * 100 + n4 * 4 + n1) = true).
    { apply is_leap_spec. Z.div_mod_to_equations. lia. }
    congruence.
Qed.

Lemma days_before_year_cycle n400 n100 n4 n1 :
  0 <= n100 <= 3 -> 0 <= n4 <= 24 -> 0 <= n1 <= 3 ->
  days_before_year (n400 * 400 + 1 + n100 * 100 + n4 * 4 + n1)
  = n400 * 146097 + n100 * 36524 + n4 * 1461 + n1 * 365.
Proof.
  intros H100 H4 H1. unfold days_before_year.
  Z.div_mod_to_equations. lia.
Qed.

Lemma ord2ymd_unfold n :
  ord2ymd n =
  let n0 := n - 1 in
  let n400 := n0 / 146097 in
  let n100 := n0 mod 146097 / 36524 in
  let n4 := n0 mod 146097 mod 36524 / 1461 in
  let n1 := n0 mod 146097 mod 36524 mod 1461 / 365 in
  let r := n0 mod 146097 mod 36524 mod 1461 mod 365 in
  let y := n400 * 400 + 1 + n100 * 100 + n4 * 4 + n1 in
  if (n1 =? 4) || (n100 =? 4) then mk_datetime (y - 1) 12 31
  else
    let leapyear := (n1 =? 3) && (negb (n4 =? 24) || (n100 =? 3)) in
    mk_datetime y (fst (month_day leapyear r)) (snd (month_day leapyear r)).
Proof.
  unfold ord2ymd, month_day, DI400Y, DI100Y, DI4Y. cbv zeta.
  destruct (_ || _); [reflexivity |].
  destruct (_ <? _); reflexivity.
Qed.

Lemma ord2ymd_spec n :
  1 <= n <= MAXORDINAL ->
  valid (ord2ymd n) = true /\ toordinal (ord2ymd n) = n.
Proof.
  unfold MAXORDINAL. intros Hn. rewrite ord2ymd_unfold. cbv zeta.
  set (n0 := n - 1).
  set (n400 := n0 / 146097).
  set (n100 := n0 mod 146097 / 36524).
  set (n4 := n0 mod 146097 mod 36524 / 1461).
  set (n1 := n0 mod 146097 mod 36524 mod 1461 / 365).
  set (r := n0 mod 146097 mod 36524 mod 1461 mod 365).
  assert (Hdec : n0 = n400 * 146097 + n100 * 36524 + n4 * 1461 + n1 * 365 + r
                 /\ 0 <= n400 <= 24 /\ 0 <= n100 <= 4 /\ 0 <= n4 <= 24
                 /\ 0 <= n1 <= 4 /\ 0 <= r <= 364
                 /\ (n100 = 4 -> n4 = 0 /\ n1 = 0 /\ r = 0)
                 /\ (n1 = 4 -> r = 0 /\ n4 <= 23)).
  { subst n400 n100 n4 n1 r n0. Z.div_mod_to_equations. lia. }
  clearbody n400 n100 n4 n1 r.
  destruct Hdec as (Hn0 & H400 & H100 & H4 & H1 & Hr & Hc & Hy).
  destruct ((n1 =? 4) || (n100 =? 4)) eqn:Hend.
  - (* the last day of a four-year or four-century cycle *)
    apply orb_true_iff in Hend. rewrite !Z.eqb_eq in Hend.
    assert (Hleap : is_leap (n400 * 400 + 1 + n100 * 100 + n4 * 4 + n1 - 1)
                    = true).
    { apply is_leap_spec. Z.div_mod_to_equations. lia. }
    split.
    + apply valid_spec. simpl. unfold days_in_month. simpl. lia.
    + unfold toordinal, ymd2ord, days_before_month. simpl.
      rewrite Hleap. simpl. unfold days_before_year.
      Z.div_mod_to_equations. lia.
  - apply orb_false_iff in Hend. rewrite !Z.eqb_neq in Hend.
    set (leapyear := (n1 =? 3) && (negb (n4 =? 24) || (n100 =? 3))).
    pose proof (month_day_ok_all leapyear r Hr) as Hok.
    unfold month_day_ok in Hok.
    destruct (month_day leapyear r) as [m dd]. simpl.
    rewrite !andb_true_iff, !Z.leb_le, Z.eqb_eq in Hok.
    destruct Hok as ((((Hm1 & Hm2) & Hd1) & Hd2) & Hsum).
    assert (Hleap : is_leap (n400 * 400 + 1 + n100 * 100 + n4 * 4 + n1)
                    = leapyear) by (apply is_leap_cycle; lia).
    split.
    + apply valid_spec. simpl. unfold days_in_month. rewrite Hleap.
      split; [lia |]. split; [lia |].
      destruct ((m =? 2) && leapyear) eqn:E; [| lia].
      apply andb_true_iff in E. destruct E as [E _]. apply Z.eqb_eq in E.
      subst m. simpl in Hd2. lia.
    + unfold toordinal, ymd2ord, days_before_month. simpl.
      rewrite Hleap, days_before_year_cycle by lia. lia.
Qed.

Lemma ord2ymd_valid n : 1 <= n <= MAXORDINAL -> valid (ord2ymd n) = true.
Proof. intros H. apply (ord2ymd_spec n H). Qed.

Lemma toordinal_ord2ymd n : 1 <= n <= MAXORDINAL -> toordinal (ord2ymd n) = n.
Proof. intros H. apply (ord2ymd_spec n H). Qed.

Lemma ord2ymd_toordinal d : valid d = true -> ord2ymd (toordinal d) = d.
Proof.
  intros Hv. pose proof (toordinal_range d Hv) as Hr.
  apply toordinal_inj; auto using ord2ymd_valid, toordinal_ord2ymd.
Qed.

Lemma digit_compare i j :
  0 <= i <= 9 -> 0 <= j <= 9 -> Ascii.compare (digit i) (digit j) = (i ?= j).
Proof.
  intros Hi Hj.
  assert (Ci : i = 0 \/ i = 1 \/ i = 2 \/ i = 3 \/ i = 4 \/ i = 5 \/ i = 6
               \/ i = 7 \/ i = 8 \/ i = 9) by lia.
  assert (Cj : j = 0 \/ j = 1 \/ j = 2 \/ j = 3 \/ j = 4 \/ j = 5 \/ j = 6
               \/ j = 7 \/ j = 8 \/ j = 9) by lia.
  repeat (destruct Ci as [Ci | Ci]); subst i;
    repeat (destruct Cj as [Cj | Cj]); subst j; reflexivity.
Qed.

Lemma compare_cons a b s t :
  String.compare (String a s) (String b t)
  = lex (Ascii.compare a b) (String.compare s t).
Proof. simpl. destruct (Ascii.compare a b); reflexivity. Qed.

Lemma pad2_compare a b s t :
  0 <= a <= 99 -> 0 <= b <= 99 ->
  String.compare (pad2 a s) (pad2 b t) = lex (a ?= b) (String.compare s t).
Proof.
  intros Ha Hb. unfold pad2.
  rewrite !compare_cons, !digit_compare
    by (Z.div_mod_to_equations; lia).
  destruct (Z.compare_spec (a / 10) (b / 10)),
           (Z.compare_spec (a mod 10) (b mod 10)),
           (Z.compare_spec a b); simpl; try reflexivity;
    exfalso; Z.div_mod_to_equations; lia.
Qed.

Lemma lex_compare_pair a1 a0 b1 b0 base rest :
  0 < base -> 0 <= a0 < base -> 0 <= b0 < base ->
  lex (a1 ?= b1) (lex (a0 ?= b0) rest)
  = lex (a1 * base + a0 ?= b1 * base + b0) rest.
Proof.
  intros Hb Ha0 Hb0.
  destruct (Z.compare_spec a1 b1), (Z.compare_spec a0 b0),
           (Z.compare_spec (a1 * base + a0) (b1 * base + b0));
    simpl; try reflexivity; exfalso; nia.
Qed.

Lemma pad4_pad2 a rest :
  0 <= a <= 9999 -> pad4 a rest = pad2 (a / 100) (pad2 (a mod 100) rest).
Proof.
  intros Ha. unfold pad4, pad2.
  replace (a / 100 / 10) with (a / 1000) by (Z.div_mod_to_equations; lia).
  replace (a mod 100 / 10) with (a / 10 mod 10)
    by (Z.div_mod_to_equations; lia).
  replace (a mod 100 mod 10) with (a mod 10) by (Z.div_mod_to_equations; lia).
  reflexivity.
Qed.

Lemma pad4_compare a b s t :
  0 <= a <= 9999 -> 0 <= b <= 9999 ->
  String.compare (pad4 a s) (pad4 b t) = lex (a ?= b) (String.compare s t).
Proof.
  intros Ha Hb. rewrite !pad4_pad2 by assumption.
  rewrite !pad2_compare by (Z.div_mod_to_equations; lia).
  rewrite (lex_compare_pair _ _ _ _ 100)
    by (Z.div_mod_to_equations; lia).
  do 2 f_equal; Z.div_mod_to_equations; lia.
Qed.

(** ISO dates compare as text the way their dates compare. *)
Lemma strftime_compare a b :
  valid a = true -> valid b = true ->
  String.compare (strftime a) (strftime b) = compare a b.
Proof.
  intros Ha Hb. apply valid_spec in Ha, Hb.
  destruct Ha as (Hya & Hma & Hda), Hb as (Hyb & Hmb & Hdb).
  pose proof (days_in_month_pos (year a) (month a) Hma).
  pose proof (days_in_month_pos (year b) (month b) Hmb).
  unfold strftime, compare.
  rewrite pad4_compare, compare_cons, pad2_compare, compare_cons, pad2_compare
    by lia.
  simpl.
  destruct (year a ?= year b), (month a ?= month b), (day a ?= day b);
    reflexivity.
Qed.

Lemma str_le_strftime a b :
  valid a = true -> valid b = true ->
  str_le (strftime a) (strftime b) = leb a b.
Proof.
  intros Ha Hb. unfold str_le, String.leb, leb.
  now rewrite strftime_compare.
Qed.

Lemma string_compare_refl s : String.compare s s = Eq.
Proof.
  pose proof (String.compare_antisym s s) as H.
  destruct (String.compare s s); simpl in H; congruence.
Qed.

Lemma strftime_inj a b :
  valid a = true -> valid b = true -> strftime a = strftime b -> a = b.
Proof.
  intros Ha Hb E. apply compare_eq.
  rewrite <- strftime_compare, E by assumption.
  apply string_compare_refl.
Qed.

End CalendarFacts.

Import CalendarFacts.

(** ** The runtime *)

Lemma range_unit n :
  range 0 (n + 1) 1 = map Z.of_nat (seq 0 (Z.to_nat (n + 1))).
Proof.
  unfold range.
  destruct (0 <? n + 1) eqn:E.
  - rewrite Z.div_1_r. replace (n + 1 - 0 - 1 + 1) with (n + 1) by lia.
    apply map_ext. intros i. lia.
  - apply Z.ltb_ge in E. now replace (Z.to_nat (n + 1)) with 0%nat by lia.
Qed.

Lemma range_unit_nil n : n < 0 -> range 0 (n + 1) 1 = [].
Proof.
  intros H. rewrite range_unit. now replace (Z.to_nat (n + 1)) with 0%nat by lia.
Qed.

Lemma range_unit_length n : length (range 0 (n + 1) 1) = Z.to_nat (n + 1).
Proof. now rewrite range_unit, length_map, length_seq. Qed.

Lemma range_unit_In n i : In i (range 0 (n + 1) 1) <-> 0 <= i <= n.
Proof.
  rewrite range_unit, in_map_iff. split.
  - intros (k & <- & Hk). apply in_seq in Hk. lia.
  - intros H. exists (Z.to_nat i). split; [lia |]. apply in_seq. lia.
Qed.

Lemma range_unit_cons n :
  0 <= n -> range 0 (n + 1) 1 = 0 :: map (fun i => i + 1) (range 0 n 1).
Proof.
  intros H. replace n with ((n - 1) + 1) at 2 by lia.
  rewrite !range_unit.
  replace (Z.to_nat (n + 1)) with (S (Z.to_nat (n - 1 + 1))) by lia.
  simpl. f_equal. rewrite <- seq_shift, !map_map.
  apply map_ext. intros i. lia.
Qed.

Lemma sum_shift xs a : fold_left Z.add xs a = a + fold_left Z.add xs 0.
Proof.
  revert a. induction xs as [| x xs IH]; intros a; simpl; [lia |].
  rewrite (IH (a + x)), (IH (0 + x)). lia.
Qed.

Lemma sum_nil : sum [] = 0.
Proof. reflexivity. Qed.

Lemma sum_cons x xs : sum (x :: xs) = x + sum xs.
Proof. unfold sum. simpl. now rewrite sum_shift. Qed.

Lemma sum_nonneg xs : Forall (fun x => 0 <= x) xs -> 0 <= sum xs.
Proof.
  induction 1 as [| x xs Hx _ IH]; [rewrite sum_nil | rewrite sum_cons]; lia.
Qed.

Lemma for_each_map {A B : Type} (body : A -> result B) (f : A -> B) xs :
  (forall x, In x xs -> body x = Ok (f x)) ->
  for_each body xs = Ok (map f xs).
Proof.
  induction xs as [| x xs IH]; intros H; simpl; [reflexivity |].
  rewrite (H x) by (left; reflexivity). simpl.
  rewrite IH by (intros y Hy; apply H; right; exact Hy). reflexivity.
Qed.

(** ** Dates inside the sprint *)

Lemma add_days_in_sprint a b n :
  Calendar.valid a = true -> Calendar.valid b = true ->
  0 <= n <= Calendar.sub_days b a ->
  Calendar.add_days a n = Ok (Calendar.ord2ymd (Calendar.toordinal a + n))
  /\ Calendar.valid (Calendar.ord2ymd (Calendar.toordinal a + n)) = true.
Proof.
  intros Ha Hb Hn. unfold Calendar.sub_days in Hn.
  pose proof (toordinal_range a Ha). pose proof (toordinal_range b Hb).
  unfold Calendar.add_days.
  assert (R : 1 <= Calendar.toordinal a + n <= Calendar.MAXORDINAL) by lia.
  split; [| now apply ord2ymd_valid].
  replace ((0 <? _) && (_ <=? _)) with true; [reflexivity |].
  symmetry. apply andb_true_iff. rewrite Z.ltb_lt, Z.leb_le. lia.
Qed.

Lemma add_days_0 a :
  Calendar.valid a = true -> Calendar.add_days a 0 = Ok a.
Proof.
  intros Ha. pose proof (toordinal_range a Ha).
  unfold Calendar.add_days. rewrite Z.add_0_r.
  replace ((0 <? _) && (_ <=? _)) with true.
  - now rewrite ord2ymd_toordinal.
  - symmetry. apply andb_true_iff. rewrite Z.ltb_lt, Z.leb_le. lia.
Qed.

Lemma duration_negative sprint :
  Calendar.valid (Sprint.start_date sprint) = true ->
  Calendar.valid (Sprint.end_date sprint) = true ->
  (Sprint.duration_days sprint < 0
   <-> Calendar.ltb (Sprint.end_date sprint) (Sprint.start_date sprint) = true).
Proof.
  intros Hs He. unfold Sprint.duration_days, Calendar.sub_days, Calendar.ltb.
  rewrite <- toordinal_compare by assumption.
  destruct (Z.compare_spec (Calendar.toordinal (Sprint.end_date sprint))
              (Calendar.toordinal (Sprint.start_date sprint)));
    split; intros; try lia; try discriminate; reflexivity.
Qed.

(** ** The sprint model *)

(** C9. For every sprint, [progress_percent] returns 0.0 when the total is 0
    and completed / total * 100 otherwise; it never raises: the division is
    not reached when the total is 0. A sprint without tasks gets 0.0. *)
Theorem progress_percent_never_divides_by_zero (sprint : Sprint.t) :
  Sprint.progress_percent sprint
  = Ok (if Sprint.total_points sprint =? 0 then 0
        else inject_Z (Sprint.completed_points sprint)
             / inject_Z (Sprint.total_points sprint) * 100)%Q
  /\ (Sprint.tasks sprint = [] -> Sprint.progress_percent sprint = Ok 0%Q).
Proof.
  unfold Sprint.progress_percent, truediv. split.
  - destruct (Sprint.total_points sprint =? 0); reflexivity.
  - intros E. unfold Sprint.total_points. rewrite E. reflexivity.
Qed.

(** ** Degenerate sprints *)

(** C10. For every sprint whose end date is strictly earlier than its start
    date, the duration in days is negative and both
    [calculate_ideal_burndown] and [calculate_actual_burndown] return the
    empty list: no exception, no point. *)
Theorem burndown_of_reversed_sprint_is_empty (sprint : Sprint.t) :
  Calendar.valid (Sprint.start_date sprint) = true ->
  Calendar.valid (Sprint.end_date sprint) = true ->
  Calendar.ltb (Sprint.end_date sprint) (Sprint.start_date sprint) = true ->
  Sprint.duration_days sprint < 0
  /\ calculate_ideal_burndown sprint = Ok []
  /\ calculate_actual_burndown sprint = Ok [].
Proof.
  intros Hs He Hlt. apply duration_negative in Hlt; [| assumption ..].
  unfold calculate_ideal_burndown, calculate_actual_burndown.
  rewrite range_unit_nil by assumption. auto.
Qed.

Lemma burndown_of_reversed_sprint_is_empty_witness :
  Sprint.duration_days sprint_reversed < 0
  /\ calculate_ideal_burndown sprint_reversed = Ok []
  /\ calculate_actual_burndown sprint_reversed = Ok [].
Proof.
  apply (burndown_of_reversed_sprint_is_empty sprint_reversed); reflexivity.
Defined.

(** ** Axis ticks *)

Lemma range_step_from_0 stop step :
  0 < step -> 0 <= stop ->
  range 0 (stop + 1) step
  = map (fun i => Z.of_nat i * step) (seq 0 (Z.to_nat (stop / step + 1))).
Proof.
  intros Hs Hm. unfold range.
  replace (0 <? stop + 1) with true by (symmetry; apply Z.ltb_lt; lia).
  replace (stop + 1 - 0 - 1) with stop by lia.
  apply map_ext. intros i. lia.
Qed.

Lemma range_from_0_empty stop step : stop < 0 -> range 0 (stop + 1) step = [].
Proof.
  intros H. unfold range.
  now replace (0 <? stop + 1) with false by (symmetry; apply Z.ltb_ge; lia).
Qed.

Lemma y_step_pos max_points : 0 < y_step max_points.
Proof. unfold y_step. lia. Qed.

Lemma y_ticks_In max_points t :
  In t (y_ticks max_points)
  <-> 0 <= t <= max_points /\ (y_step max_points | t).
Proof.
  unfold y_ticks. pose proof (y_step_pos max_points) as Hs.
  set (step := y_step max_points) in *.
  destruct (Z.lt_ge_cases max_points 0) as [Hneg | Hpos].
  - rewrite range_from_0_empty by assumption. simpl. lia.
  - rewrite range_step_from_0, in_map_iff by assumption. split.
    + intros (i & <- & Hi). apply in_seq in Hi.
      assert (Hq : Z.of_nat i <= max_points / step) by lia.
      split; [| now exists (Z.of_nat i)].
      split; [lia |].
      pose proof (Z.mul_div_le max_points step Hs).
      apply Z.le_trans with (step * (max_points / step)); [| assumption].
      rewrite Z.mul_comm. apply Z.mul_le_mono_nonneg_l; lia.
    + intros ((H0 & Hle) & (k & ->)).
      assert (Hk : 0 <= k) by nia.
      exists (Z.to_nat k). split; [lia |]. apply in_seq.
      assert (k <= max_points / step) by (apply Z.div_le_lower_bound; lia).
      lia.
Qed.

Lemma y_ticks_length max_points :
  length (y_ticks max_points)
  = Z.to_nat (if max_points <? 0 then 0
              else max_points / y_step max_points + 1).
Proof.
  unfold y_ticks. pose proof (y_step_pos max_points).
  destruct (max_points <? 0) eqn:E.
  - apply Z.ltb_lt in E. now rewrite range_from_0_empty.
  - apply Z.ltb_ge in E.
    now rewrite range_step_from_0, length_map, length_seq.
Qed.

Lemma y_ticks_at_most_10 max_points : (length (y_ticks max_points) <= 10)%nat.
Proof.
  rewrite y_ticks_length.
  destruct (max_points <? 0) eqn:E; [simpl; lia |].
  apply Z.ltb_ge in E. unfold y_step.
  destruct (Z.le_gt_cases 5 max_points) as [H5 | H5].
  - assert (Hq : 1 <= max_points / 5) by (apply Z.div_le_lower_bound; lia).
    rewrite Z.max_r by lia.
    assert (max_points / (max_points / 5) < 10).
    { apply Z.div_lt_upper_bound; [lia |].
      pose proof (Z.mod_pos_bound max_points 5 ltac:(lia)).
      pose proof (Z.div_mod max_points 5 ltac:(lia)). lia. }
    lia.
  - assert (Hq : max_points / 5 = 0) by (apply Z.div_small; lia).
    rewrite Hq, Z.max_l, Z.div_1_r by lia. lia.
Qed.

Lemma y_ticks_exactly_6 max_points :
  25 <= max_points -> length (y_ticks max_points) = 6%nat.
Proof.
  intros H. rewrite y_ticks_length.
  replace (max_points <? 0) with false by (symmetry; apply Z.ltb_ge; lia).
  unfold y_step.
  assert (Hq : 5 <= max_points / 5) by (apply Z.div_le_lower_bound; lia).
  rewrite Z.max_r by lia.
  pose proof (Z.mod_pos_bound max_points 5 ltac:(lia)).
  pose proof (Z.div_mod max_points 5 ltac:(lia)).
  assert (max_points / (max_points / 5) = 5).
  { symmetry. apply (Z.div_unique _ _ 5 (max_points mod 5)); lia. }
  lia.
Qed.

Lemma x_scale_ok sprint : exists xs, x_scale sprint = Ok xs.
Proof.
  unfold x_scale, truediv. destruct (0 <? _) eqn:E; [| eauto].
  apply Z.ltb_lt in E.
  replace (Sprint.duration_days sprint =? 0) with false
    by (symmetry; apply Z.eqb_neq; lia).
  eauto.
Qed.

Lemma y_scale_spec sprint :
  y_scale sprint
  = Ok (if 0 <? Sprint.total_points sprint
        then inject_Z chart_height / inject_Z (Sprint.total_points sprint)
        else 0)%Q.
Proof.
  unfold y_scale, truediv. destruct (0 <? _) eqn:E; [| reflexivity].
  apply Z.ltb_lt in E.
  now replace (Sprint.total_points sprint =? 0) with false
    by (symmetry; apply Z.eqb_neq; lia).
Qed.

Lemma generate_svg_chart_ok now sprint ideal actual :
  exists xs ys svg,
    x_scale sprint = Ok xs /\ y_scale sprint = Ok ys
    /\ generate_svg_chart now sprint ideal actual = Ok svg
    /\ map snd (y_labels svg) = y_ticks (Sprint.total_points sprint)
    /\ ideal_path svg
       = path_points (fun r => r) (Sprint.total_points sprint) xs ys ideal
    /\ actual_path svg
       = match actual_filtered (Calendar.strftime now) actual with
         | [] => None
         | _ :: _ =>
             Some (path_points inject_Z (Sprint.total_points sprint) xs ys
                     (actual_filtered (Calendar.strftime now) actual))
         end.
Proof.
  destruct (x_scale_ok sprint) as [xs Hx].
  pose proof (y_scale_spec sprint) as Hy.
  eexists xs, _, _. unfold generate_svg_chart. rewrite Hx, Hy. simpl.
  repeat split. cbn [y_labels]. rewrite map_map. simpl. apply map_id.
Qed.

Lemma y_ticks_NoDup max_points : List.NoDup (y_ticks max_points).
Proof.
  unfold y_ticks. pose proof (y_step_pos max_points) as Hs.
  destruct (Z.lt_ge_cases max_points 0) as [Hneg | Hpos].
  - rewrite range_from_0_empty by assumption. constructor.
  - rewrite range_step_from_0 by assumption.
    apply Injective_map_NoDup; [| apply seq_NoDup].
    intros i j E. nia.
Qed.

(** C3, as the code has it. For every sprint, the y-axis ticks are exactly
    the multiples of step = max(1, total // 5) from 0 up to the total
    inclusive, each once; there are at most ten of them, and exactly six
    from 25 points on. *)
Theorem y_axis_ticks (now : Calendar.datetime) (sprint : Sprint.t)
  (ideal : list (BurndownPoint Q)) (actual : list (BurndownPoint Z)) :
  exists svg,
    generate_svg_chart now sprint ideal actual = Ok svg
    /\ let total := Sprint.total_points sprint in
       let step := Z.max 1 (total / 5) in
       let ticks := map snd (y_labels svg) in
       (forall t, In t ticks <-> 0 <= t <= total /\ (step | t))
       /\ List.NoDup ticks
       /\ (length ticks <= 10)%nat
       /\ (25 <= total -> length ticks = 6%nat).
Proof.
  destruct (generate_svg_chart_ok now sprint ideal actual)
    as (xs & ys & svg & _ & _ & Hsvg & Hticks & _).
  exists svg. split; [exact Hsvg |]. cbv zeta. rewrite Hticks.
  split; [intros t; apply y_ticks_In |].
  split; [apply y_ticks_NoDup |].
  split; [apply y_ticks_at_most_10 | apply y_ticks_exactly_6].
Qed.

(** C3 as stated fails: nine points give the ten ticks 0, 1, ..., 9. *)
Lemma y_axis_ticks_more_than_six :
  exists svg,
    render_chart (ymd 2025 1 3) sprint_nine = Ok svg
    /\ map snd (y_labels svg) = [0; 1; 2; 3; 4; 5; 6; 7; 8; 9]
    /\ ~ (length (y_labels svg) <= 6)%nat.
Proof.
  eexists. split; [vm_compute; reflexivity |].
  split; [reflexivity | simpl; lia].
Qed.

(** ** The worked example of the specification *)

(** C2, as the code has it. For the sprint from 2025-01-01 to 2025-01-05
    with task A (3 points, completed on 2025-01-02) and task B (2 points,
    completed on 2025-01-04), the ideal series is 5.0, 3.8, 2.5, 1.2, 0.0
    (each value rounded to one decimal, ties to even) and the actual series
    is 5, 2, 2, 0, 0 (a task's points leave the series on the day it was
    completed). *)
Theorem example_sprint_series :
  calculate_ideal_burndown sprint_example
  = Ok [ mk_point 0 "2025-01-01" 5.0%Q; mk_point 1 "2025-01-02" 3.8%Q;
         mk_point 2 "2025-01-03" 2.5%Q; mk_point 3 "2025-01-04" 1.2%Q;
         mk_point 4 "2025-01-05" 0.0%Q ]
  /\ calculate_actual_burndown sprint_example
     = Ok [ mk_point 0 "2025-01-01" 5; mk_point 1 "2025-01-02" 2;
            mk_point 2 "2025-01-03" 2; mk_point 3 "2025-01-04" 0;
            mk_point 4 "2025-01-05" 0 ].
Proof. split; vm_compute; reflexivity. Qed.

(** C2 as stated fails on both series: the ideal one is not
    5, 3.75, 2.5, 1.25, 0 and the actual one is not 5, 5, 2, 2, 0. *)
Lemma example_sprint_series_not_as_stated :
  (exists ideal,
     calculate_ideal_burndown sprint_example = Ok ideal
     /\ ~ Forall2 Qeq (map remaining ideal) [5; 3.75; 2.5; 1.25; 0]%Q)
  /\ (exists actual,
        calculate_actual_burndown sprint_example = Ok actual
        /\ map remaining actual <> [5; 5; 2; 2; 0]).
Proof.
  split; eexists; (split; [vm_compute; reflexivity |]).
  - intros H. inversion H as [| ? ? ? ? _ H1]; subst.
    inversion H1 as [| ? ? ? ? Hq _]; subst.
    vm_compute in Hq. discriminate.
  - simpl. discriminate.
Qed.

(** ** Construction *)




(** ** Geometry *)





(** ** The actual series *)

Lemma completed_on_cons t tasks date :
  completed_on (t :: tasks) date
  = (if Task.is_complete t
        && match Task.completed_date t with
           | Some d => String.eqb d date
           | None => false
           end
     then Task.story_points t else 0)
    + completed_on tasks date.
Proof.
  unfold completed_on. simpl.
  destruct (_ && _); [simpl; now rewrite sum_cons | reflexivity].
Qed.

Lemma fold_add_completion tasks (m : gmap string Z) date :
  date <> EmptyString ->
  default 0 (fold_left add_completion tasks m !! date)
  = default 0 (m !! date) + completed_on tasks date.
Proof.
  intros Hne. revert m.
  induction tasks as [| t tasks IH]; intros m; simpl.
  - unfold completed_on. simpl. rewrite sum_nil. lia.
  - rewrite IH, completed_on_cons. unfold add_completion.
    destruct (Task.is_complete t); cbn [andb]; [| lia].
    destruct (Task.completed_date t) as [[| c s] |]; cbn [truthy].
    + destruct (String.eqb_spec EmptyString date) as [<- | Hd];
        [congruence | lia].
    + destruct (String.eqb_spec (String c s) date) as [-> | Hd].
      * rewrite lookup_insert_eq. simpl. lia.
      * rewrite lookup_insert_ne by assumption. lia.
    + lia.
Qed.

Lemma group_completions_lookup tasks date :
  date <> EmptyString ->
  default 0 (group_completions tasks !! date) = completed_on tasks date.
Proof.
  intros Hne. unfold group_completions.
  rewrite fold_add_completion by assumption.
  rewrite lookup_empty. simpl. lia.
Qed.

Lemma strftime_not_empty dt : Calendar.strftime dt <> EmptyString.
Proof. discriminate. Qed.

Lemma completed_on_nonneg tasks date :
  Forall (fun t => 0 <= Task.story_points t) tasks ->
  0 <= completed_on tasks date.
Proof.
  intros H. unfold completed_on. apply sum_nonneg.
  apply List.Forall_map. apply List.Forall_forall. intros t Ht.
  apply filter_In in Ht. destruct Ht as [Ht _].
  rewrite List.Forall_forall in H. now apply H.
Qed.

Lemma after_day_default m date r :
  after_day m date r = r - default 0 (m !! date).
Proof. unfold after_day. destruct (m !! date); simpl; lia. Qed.

Lemma actual_loop_spec start (m : gmap string Z) days r :
  (forall day, In day days -> exists dt, Calendar.add_days start day = Ok dt) ->
  exists points,
    actual_loop start m days r = Ok points
    /\ map day points = days
    /\ Forall (fun p => 0 <= remaining p) points
    /\ ((forall dt, 0 <= default 0 (m !! Calendar.strftime dt)) ->
        Forall (fun p => remaining p <= Z.max 0 r) points
        /\ StronglySorted (fun a b => b <= a) (map remaining points)).
Proof.
  revert r. induction days as [| day0 days IH]; intros r Hdays; simpl.
  - exists []. repeat split; constructor.
  - destruct (Hdays day0 (or_introl eq_refl)) as [dt Hdt]. rewrite Hdt. simpl.
    fold (after_day m (Calendar.strftime dt) r).
    set (r' := after_day m (Calendar.strftime dt) r).
    destruct (IH r' (fun day0 H => Hdays day0 (or_intror H)))
      as (points & Hloop & Hday & Hpos & Hmono).
    rewrite Hloop. simpl. eexists. split; [reflexivity |].
    split; [simpl; now rewrite Hday |].
    split; [constructor; [simpl; lia | exact Hpos] |].
    intros Hc. destruct (Hmono Hc) as [Hle Hsorted].
    assert (Hr : r' <= r).
    { subst r'. rewrite after_day_default. specialize (Hc dt). lia. }
    split.
    + constructor; [simpl; lia |].
      eapply List.Forall_impl; [| exact Hle]. simpl. intros p Hp. lia.
    + simpl. constructor; [exact Hsorted |].
      apply List.Forall_map. exact Hle.
Qed.

Lemma sprint_days_ok sprint :
  Calendar.valid (Sprint.start_date sprint) = true ->
  Calendar.valid (Sprint.end_date sprint) = true ->
  forall day,
    In day (range 0 (Sprint.duration_days sprint + 1) 1) ->
    exists dt,
      Calendar.add_days (Sprint.start_date sprint) day = Ok dt
      /\ Calendar.valid dt = true.
Proof.
  intros Hs He day Hin. apply range_unit_In in Hin.
  destruct (add_days_in_sprint _ _ day Hs He Hin) as [E V]. eauto.
Qed.

Lemma completions_nonneg tasks :
  Forall (fun t => 0 <= Task.story_points t) tasks ->
  forall dt, 0 <= default 0 (group_completions tasks !! Calendar.strftime dt).
Proof.
  intros H dt. rewrite group_completions_lookup by apply strftime_not_empty.
  now apply completed_on_nonneg.
Qed.

Lemma calculate_actual_burndown_spec (sprint : Sprint.t) :
  Calendar.valid (Sprint.start_date sprint) = true ->
  Calendar.valid (Sprint.end_date sprint) = true ->
  exists points,
    calculate_actual_burndown sprint = Ok points
    /\ map day points = range 0 (Sprint.duration_days sprint + 1) 1
    /\ Forall (fun p => 0 <= remaining p) points
    /\ (Forall (fun t => 0 <= Task.story_points t) (Sprint.tasks sprint) ->
        StronglySorted (fun a b => b <= a) (map remaining points)).
Proof.
  intros Hs He. unfold calculate_actual_burndown.
  destruct (actual_loop_spec (Sprint.start_date sprint)
              (group_completions (Sprint.tasks sprint))
              (range 0 (Sprint.duration_days sprint + 1) 1)
              (Sprint.total_points sprint))
    as (points & Hloop & Hday & Hpos & Hmono).
  { intros day Hin.
    destruct (sprint_days_ok sprint Hs He day Hin) as (dt & Hdt & _). eauto. }
  exists points. split; [exact Hloop |]. split; [exact Hday |].
  split; [exact Hpos |].
  intros Hw. apply Hmono. now apply completions_nonneg.
Qed.

(** C6, as the code has it. For every sprint (its dates being dates of the
    calendar) [calculate_actual_burndown] returns a series of
    [duration + 1] points (none when the duration is negative) whose every
    remaining value is at least 0; when no task has a negative story-point
    weight, the remaining values are non-increasing over the day index,
    however the completion dates are distributed. *)
Theorem actual_burndown_bounded_and_non_increasing (sprint : Sprint.t) :
  Calendar.valid (Sprint.start_date sprint) = true ->
  Calendar.valid (Sprint.end_date sprint) = true ->
  exists points,
    calculate_actual_burndown sprint = Ok points
    /\ length points = Z.to_nat (Sprint.duration_days sprint + 1)
    /\ Forall (fun p => 0 <= remaining p) points
    /\ (Forall (fun t => 0 <= Task.story_points t) (Sprint.tasks sprint) ->
        StronglySorted (fun a b => b <= a) (map remaining points)).
Proof.
  intros Hs He.
  destruct (calculate_actual_burndown_spec sprint Hs He)
    as (points & Hcalc & Hday & Hpos & Hmono).
  exists points. split; [exact Hcalc |].
  split; [now rewrite <- (length_map day), Hday, range_unit_length |].
  split; assumption.
Qed.

Lemma actual_burndown_bounded_and_non_increasing_witness :
  exists points,
    calculate_actual_burndown sprint_example = Ok points
    /\ length points = Z.to_nat (Sprint.duration_days sprint_example + 1)
    /\ Forall (fun p => 0 <= remaining p) points
    /\ (Forall (fun t => 0 <= Task.story_points t)
          (Sprint.tasks sprint_example) ->
        StronglySorted (fun a b => b <= a) (map remaining points)).
Proof.
  apply (actual_burndown_bounded_and_non_increasing sprint_example);
    reflexivity.
Defined.

(** C6 as stated fails: a completed task of weight -3 raises the series
    from 2 to 5. *)
Lemma actual_burndown_can_increase :
  exists points,
    calculate_actual_burndown sprint_negative = Ok points
    /\ map remaining points = [2; 5; 5; 5; 5]
    /\ ~ StronglySorted (fun a b => b <= a) (map remaining points).
Proof.
  eexists. split; [vm_compute; reflexivity |]. split; [reflexivity |].
  simpl. intros H. apply StronglySorted_inv in H. destruct H as [_ H].
  apply Forall_inv in H. lia.
Qed.

(** C4, as the code has it. For every sprint of duration at least 0, the
    first point of the actual series is day 0, dated on the start date, and
    its remaining is max(0, total - points of the completed tasks dated on
    the start date); it is the total when those points are 0 and the total
    is not negative. So the points completed on the start date are
    already taken off the first point. *)
Theorem actual_burndown_first_point (sprint : Sprint.t) :
  Calendar.valid (Sprint.start_date sprint) = true ->
  Calendar.valid (Sprint.end_date sprint) = true ->
  0 <= Sprint.duration_days sprint ->
  exists p rest,
    calculate_actual_burndown sprint = Ok (p :: rest)
    /\ day p = 0
    /\ date p = Calendar.strftime (Sprint.start_date sprint)
    /\ let done :=
         completed_on (Sprint.tasks sprint)
           (Calendar.strftime (Sprint.start_date sprint)) in
       remaining p = Z.max 0 (Sprint.total_points sprint - done)
       /\ (done = 0 -> 0 <= Sprint.total_points sprint ->
           remaining p = Sprint.total_points sprint).
Proof.
  intros Hs He Hd.
  destruct (calculate_actual_burndown_spec sprint Hs He)
    as (points & Hcalc & _).
  unfold calculate_actual_burndown in *.
  rewrite range_unit_cons in * by assumption.
  simpl in Hcalc. rewrite add_days_0 in Hcalc by assumption. simpl in Hcalc.
  destruct (actual_loop _ _ _ _) as [rest |] eqn:Erest; [| discriminate].
  simpl in Hcalc. injection Hcalc as <-.
  simpl. rewrite add_days_0 by assumption. simpl. rewrite Erest. simpl.
  eexists _, rest. split; [reflexivity |]. simpl.
  split; [reflexivity |]. split; [reflexivity |].
  fold (after_day (group_completions (Sprint.tasks sprint))
          (Calendar.strftime (Sprint.start_date sprint))
          (Sprint.total_points sprint)).
  rewrite after_day_default, group_completions_lookup
    by apply strftime_not_empty.
  split; [reflexivity | lia].
Qed.

Lemma actual_burndown_first_point_witness :
  exists p rest,
    calculate_actual_burndown sprint_day0 = Ok (p :: rest)
    /\ day p = 0
    /\ date p = "2025-01-01"
    /\ remaining p = 2.
Proof.
  destruct (actual_burndown_first_point sprint_day0 eq_refl eq_refl)
    as (p & rest & Hcalc & Hday & Hdate & Hrem & _).
  - vm_compute. discriminate.
  - exists p, rest. repeat split; assumption.
Defined.

(** C4 as stated fails: with a task completed on the start date the first
    point is below the total. *)
Lemma actual_burndown_first_point_below_total :
  Sprint.total_points sprint_day0 = 5
  /\ exists p rest,
       calculate_actual_burndown sprint_day0 = Ok (p :: rest)
       /\ remaining p = 2.
Proof. split; [reflexivity |]. eexists _, _. split; vm_compute; reflexivity. Qed.

(** ** Rounding *)

Lemma round_half_even_spec x :
  let k := round_half_even x in
  let n := Qnum x in
  let d := Z.pos (Qden x) in
  2 * n - d <= 2 * (k * d) <= 2 * n + d
  /\ (2 * (k * d) = 2 * n + d -> Z.even k = true)
  /\ (2 * (k * d) = 2 * n - d -> Z.even k = true).
Proof.
  cbv zeta. unfold round_half_even.
  set (n := Qnum x). set (d := Z.pos (Qden x)).
  assert (Hd : 0 < d) by (subst d; lia).
  pose proof (Z.div_mod n d ltac:(lia)) as Hn.
  pose proof (Z.mod_pos_bound n d Hd) as Hr.
  set (q := n / d) in *. set (r := n mod d) in *.
  clearbody q r n d.
  destruct (Z.compare_spec (2 * r) d) as [E | L | G].
  - destruct (Z.even q) eqn:Eq.
    + repeat split; try lia. intros _. exact Eq.
    + assert (Ek : Z.even (q + 1) = true).
      { rewrite Z.even_add, Eq. reflexivity. }
      repeat split; try lia. intros _. exact Ek.
  - repeat split; lia.
  - repeat split; lia.
Qed.

Lemma round_half_even_mono x y :
  (x <= y)%Q -> round_half_even x <= round_half_even y.
Proof.
  intros Hle. unfold Qle in Hle.
  pose proof (round_half_even_spec x) as Hx.
  pose proof (round_half_even_spec y) as Hy. cbv zeta in Hx, Hy.
  set (kx := round_half_even x) in *. set (ky := round_half_even y) in *.
  set (nx := Qnum x) in *. set (ny := Qnum y) in *.
  set (dx := Z.pos (Qden x)) in *. set (dy := Z.pos (Qden y)) in *.
  assert (Hdx : 0 < dx) by (subst dx; lia).
  assert (Hdy : 0 < dy) by (subst dy; lia).
  clearbody kx ky nx ny dx dy.
  destruct Hx as ((_ & Hx1) & Hx2 & _). destruct Hy as ((Hy1 & _) & _ & Hy2).
  destruct (Z.le_gt_cases kx ky) as [| Hgt]; [assumption | exfalso].
  assert (H1 : 2 * (kx * dx) * dy <= (2 * nx + dx) * dy)
    by (apply Z.mul_le_mono_nonneg_r; lia).
  assert (H2 : (2 * ny - dy) * dx <= 2 * (ky * dy) * dx)
    by (apply Z.mul_le_mono_nonneg_r; lia).
  assert (Hp : 0 < dx * dy) by lia.
  assert (H3 : (kx - ky - 1) * (dx * dy) <= 0) by lia.
  assert (Hk : kx = ky + 1) by nia.
  subst kx.
  assert (T1 : 2 * ((ky + 1) * dx) = 2 * nx + dx) by nia.
  assert (T2 : 2 * (ky * dy) = 2 * ny - dy) by nia.
  specialize (Hx2 T1). specialize (Hy2 T2).
  rewrite Z.even_add, Hy2 in Hx2. discriminate.
Qed.

Lemma round_half_even_Qeq x y :
  (x == y)%Q -> round_half_even x = round_half_even y.
Proof.
  intros E. apply Z.le_antisymm; apply round_half_even_mono;
    rewrite E; apply Qle_refl.
Qed.

Lemma round_half_even_inject k : round_half_even (inject_Z k) = k.
Proof.
  unfold round_half_even. simpl. rewrite Z.div_1_r, Z.mod_1_r. reflexivity.
Qed.

Lemma round1_mono x y : (x <= y)%Q -> (round1 x <= round1 y)%Q.
Proof.
  intros H. unfold round1, Qle. simpl.
  assert (round_half_even (x * 10) <= round_half_even (y * 10)).
  { apply round_half_even_mono. apply Qmult_le_compat_r; [exact H |].
    discriminate. }
  lia.
Qed.

Lemma round1_of_int x k : (x == inject_Z k)%Q -> (round1 x == inject_Z k)%Q.
Proof.
  intros E. unfold round1.
  rewrite (round_half_even_Qeq (x * 10) (inject_Z (k * 10))).
  - rewrite round_half_even_inject. unfold Qeq. simpl. lia.
  - rewrite E, inject_Z_mult. reflexivity.
Qed.

(** ** The ideal series *)

Lemma ideal_value_mono total days i j :
  0 <= total -> 0 < days -> i <= j ->
  (ideal_value total days j <= ideal_value total days i)%Q.
Proof.
  intros Ht Hd Hij. unfold ideal_value, Qminus.
  apply Qplus_le_r. apply Qopp_le_compat. unfold Qdiv.
  apply Qmult_le_compat_r.
  - rewrite <- Zle_Qle. nia.
  - apply Qinv_le_0_compat. replace 0%Q with (inject_Z 0) by reflexivity.
    rewrite <- Zle_Qle. lia.
Qed.

Lemma ideal_value_first total days : (ideal_value total days 0 == inject_Z total)%Q.
Proof.
  unfold ideal_value. rewrite Z.mul_0_r.
  unfold Qdiv. change (inject_Z 0) with 0%Q. ring.
Qed.

Lemma ideal_value_last total days :
  0 < days -> (ideal_value total days days == 0)%Q.
Proof.
  intros Hd. unfold ideal_value. rewrite inject_Z_mult. field.
  intros C. unfold Qeq in C. simpl in C. lia.
Qed.

Lemma ideal_point_spec sprint day :
  Calendar.valid (Sprint.start_date sprint) = true ->
  Calendar.valid (Sprint.end_date sprint) = true ->
  0 <= day <= Sprint.duration_days sprint ->
  ideal_point sprint day
  = Ok (mk_point day
          (Calendar.strftime
             (Calendar.ord2ymd
                (Calendar.toordinal (Sprint.start_date sprint) + day)))
          (round1
             (if 0 <? Sprint.duration_days sprint
              then ideal_value (Sprint.total_points sprint)
                     (Sprint.duration_days sprint) day
              else 0%Q))).
Proof.
  intros Hs He Hday. unfold ideal_point.
  destruct (add_days_in_sprint _ _ day Hs He Hday) as [-> _]. simpl.
  destruct (0 <? Sprint.duration_days sprint) eqn:E; [| reflexivity].
  apply Z.ltb_lt in E. unfold truediv.
  replace (Sprint.duration_days sprint =? 0) with false
    by (symmetry; apply Z.eqb_neq; lia).
  reflexivity.
Qed.

Lemma calculate_ideal_burndown_spec sprint :
  Calendar.valid (Sprint.start_date sprint) = true ->
  Calendar.valid (Sprint.end_date sprint) = true ->
  calculate_ideal_burndown sprint
  = Ok (map (fun i =>
               mk_point (Z.of_nat i)
                 (Calendar.strftime
                    (Calendar.ord2ymd
                       (Calendar.toordinal (Sprint.start_date sprint)
                        + Z.of_nat i)))
                 (round1
                    (if 0 <? Sprint.duration_days sprint
                     then ideal_value (Sprint.total_points sprint)
                            (Sprint.duration_days sprint) (Z.of_nat i)
                     else 0%Q)))
          (seq 0 (Z.to_nat (Sprint.duration_days sprint + 1)))).
Proof.
  intros Hs He. unfold calculate_ideal_burndown.
  rewrite (for_each_map _
             (fun day =>
                mk_point day
                  (Calendar.strftime
                     (Calendar.ord2ymd
                        (Calendar.toordinal (Sprint.start_date sprint) + day)))
                  (round1
                     (if 0 <? Sprint.duration_days sprint
                      then ideal_value (Sprint.total_points sprint)
                             (Sprint.duration_days sprint) day
                      else 0%Q)))).
  - now rewrite range_unit, map_map.
  - intros day Hin. apply range_unit_In in Hin. now apply ideal_point_spec.
Qed.

Lemma sorted_map_seq (g : nat -> Q) s n :
  (forall i j, (i <= j)%nat -> (g j <= g i)%Q) ->
  StronglySorted (fun a b => (b <= a)%Q) (map g (seq s n)).
Proof.
  intros Hg. revert s. induction n as [| n IH]; intros s; simpl.
  - constructor.
  - constructor; [apply IH |].
    apply List.Forall_map, List.Forall_forall. intros i Hi.
    apply in_seq in Hi. apply Hg. lia.
Qed.

(** C5, as the code has it. For every sprint of duration > 0 the ideal
    series has exactly duration + 1 points, starts at the total and ends at
    0, and is non-increasing when the total is not negative; for duration 0
    it is a single point with remaining 0. *)
Theorem ideal_burndown_shape (sprint : Sprint.t) :
  Calendar.valid (Sprint.start_date sprint) = true ->
  Calendar.valid (Sprint.end_date sprint) = true ->
  (0 < Sprint.duration_days sprint ->
   exists first middle last,
     calculate_ideal_burndown sprint = Ok (first :: middle ++ [last])
     /\ length (first :: middle ++ [last])
        = Z.to_nat (Sprint.duration_days sprint + 1)
     /\ (remaining first == inject_Z (Sprint.total_points sprint))%Q
     /\ (remaining last == 0)%Q
     /\ (0 <= Sprint.total_points sprint ->
         StronglySorted (fun a b => (b <= a)%Q)
           (map remaining (first :: middle ++ [last]))))
  /\ (Sprint.duration_days sprint = 0 ->
      exists p,
        calculate_ideal_burndown sprint = Ok [p]
        /\ (remaining p == 0)%Q).
Proof.
  intros Hs He. rewrite (calculate_ideal_burndown_spec sprint Hs He).
  set (total := Sprint.total_points sprint).
  set (days := Sprint.duration_days sprint).
  split.
  - intros Hd.
    replace (0 <? days) with true by (symmetry; apply Z.ltb_lt; lia).
    set (f := fun i : nat => mk_point (Z.of_nat i) _ _).
    assert (Hn : Z.to_nat (days + 1) = S (S (Z.to_nat (days - 1)))) by lia.
    rewrite Hn.
    set (m := Z.to_nat (days - 1)).
    assert (Hsplit : map f (seq 0 (S (S m)))
                     = f 0%nat :: map f (seq 1 m) ++ [f (S m)]).
    { rewrite seq_S, map_app. simpl. reflexivity. }
    assert (Hlen : length (map f (seq 0 (S (S m)))) = S (S m))
      by now rewrite length_map, length_seq.
    assert (Hsorted : 0 <= total ->
              StronglySorted (fun a b => (b <= a)%Q)
                (map remaining (map f (seq 0 (S (S m)))))).
    { intros Ht. rewrite map_map. apply sorted_map_seq. intros i j Hij.
      subst f. simpl. apply round1_mono. apply ideal_value_mono; lia. }
    rewrite Hsplit in *.
    exists (f 0%nat), (map f (seq 1 m)), (f (S m)).
    split; [reflexivity |]. split; [exact Hlen |].
    split; [subst f; simpl; apply round1_of_int, ideal_value_first |].
    split; [| exact Hsorted].
    subst f. simpl remaining. change 0%Q with (inject_Z 0).
    apply round1_of_int.
    replace (Z.of_nat (S m)) with days by lia.
    now apply ideal_value_last.
  - intros Hd. rewrite Hd. simpl. eexists. split; [reflexivity |].
    reflexivity.
Qed.

Lemma ideal_burndown_shape_witness :
  exists first middle last,
    calculate_ideal_burndown sprint_example = Ok (first :: middle ++ [last])
    /\ length (first :: middle ++ [last])
       = Z.to_nat (Sprint.duration_days sprint_example + 1)
    /\ (remaining first == inject_Z (Sprint.total_points sprint_example))%Q
    /\ (remaining last == 0)%Q
    /\ (0 <= Sprint.total_points sprint_example ->
        StronglySorted (fun a b => (b <= a)%Q)
          (map remaining (first :: middle ++ [last]))).
Proof.
  apply (ideal_burndown_shape sprint_example); [reflexivity .. |].
  vm_compute. reflexivity.
Defined.

(** C5 as stated fails: with a negative total the ideal series rises. *)
Lemma ideal_burndown_can_increase :
  0 < Sprint.duration_days sprint_negative_total
  /\ exists points,
       calculate_ideal_burndown sprint_negative_total = Ok points
       /\ map remaining points = [(-5.0)%Q; (-3.8)%Q; (-2.5)%Q; (-1.2)%Q; 0.0%Q]
       /\ ~ StronglySorted (fun a b => (b <= a)%Q) (map remaining points).
Proof.
  split; [vm_compute; reflexivity |].
  eexists. split; [vm_compute; reflexivity |]. split; [reflexivity |].
  simpl. intros H. apply StronglySorted_inv in H. destruct H as [_ H].
  apply Forall_inv in H. vm_compute in H. apply H. reflexivity.
Qed.

(** ** Reading a formatted date back *)

Lemma is_digit_digit k : 0 <= k <= 9 -> Calendar.is_digit (Calendar.digit k) = true.
Proof.
  intros H.
  assert (C : k = 0 \/ k = 1 \/ k = 2 \/ k = 3 \/ k = 4 \/ k = 5 \/ k = 6
              \/ k = 7 \/ k = 8 \/ k = 9) by lia.
  repeat (destruct C as [C | C]); subst k; reflexivity.
Qed.

Lemma digit_val_digit k : 0 <= k <= 9 -> Calendar.digit_val (Calendar.digit k) = k.
Proof.
  intros H.
  assert (C : k = 0 \/ k = 1 \/ k = 2 \/ k = 3 \/ k = 4 \/ k = 5 \/ k = 6
              \/ k = 7 \/ k = 8 \/ k = 9) by lia.
  repeat (destruct C as [C | C]); subst k; reflexivity.
Qed.

Lemma match_Y_pad4 y rest :
  0 <= y <= 9999 -> Calendar.match_Y (Calendar.pad4 y rest) = Some (y, rest).
Proof.
  intros H. unfold Calendar.match_Y, Calendar.pad4.
  rewrite !is_digit_digit, !digit_val_digit
    by (Z.div_mod_to_equations; lia).
  simpl. do 2 f_equal. Z.div_mod_to_equations. lia.
Qed.

Lemma match_m_pad2 m rest :
  1 <= m <= 12 -> Calendar.match_m (Calendar.pad2 m rest) = Some (m, rest).
Proof. intros H. month_cases m; reflexivity. Qed.

Lemma match_d_pad2 d :
  1 <= d <= 31 ->
  Calendar.match_d (Calendar.pad2 d EmptyString) = Some (d, EmptyString).
Proof.
  intros H. destruct d as [| p | p]; try lia.
  do 5 (try destruct p as [p | p |]); try lia; reflexivity.
Qed.

Lemma strptime_strftime dt :
  Calendar.valid dt = true -> Calendar.strptime (Calendar.strftime dt) = Ok dt.
Proof.
  intros Hv. pose proof Hv as Hv'. apply valid_spec in Hv'.
  destruct Hv' as (Hy & Hm & Hd).
  pose proof (days_in_month_pos (Calendar.year dt) (Calendar.month dt) Hm).
  unfold Calendar.strptime, Calendar.strftime.
  rewrite match_Y_pad4 by lia. cbn [Calendar.expect].
  replace (Ascii.eqb Calendar.dash Calendar.dash) with true by reflexivity.
  rewrite match_m_pad2 by lia. cbn [Calendar.expect].
  replace (Ascii.eqb Calendar.dash Calendar.dash) with true by reflexivity.
  rewrite match_d_pad2 by lia.
  destruct dt as [y m d]. simpl in *. now rewrite Hv.
Qed.

(** ** The truncated path *)

Lemma actual_loop_dates start (m : gmap string Z) days r points :
  (forall day, In day days ->
     exists dt, Calendar.add_days start day = Ok dt
                /\ Calendar.valid dt = true) ->
  actual_loop start m days r = Ok points ->
  Forall (fun p => exists dt,
            Calendar.add_days start (day p) = Ok dt
            /\ Calendar.valid dt = true
            /\ date p = Calendar.strftime dt) points.
Proof.
  revert r points. induction days as [| day0 days IH]; intros r points Hdays;
    simpl.
  - intros H. injection H as <-. constructor.
  - destruct (Hdays day0 (or_introl eq_refl)) as (dt & Hdt & Hv).
    rewrite Hdt. simpl.
    destruct (actual_loop _ _ _ _) as [rest |] eqn:Erest; [| discriminate].
    simpl. intros H. injection H as <-.
    constructor.
    + exists dt. simpl. auto.
    + eapply IH; [| exact Erest]. intros d Hd. apply Hdays. now right.
Qed.

Lemma actual_filtered_by_date now start (actual : list (BurndownPoint Z)) :
  Calendar.valid now = true ->
  Forall (fun p => exists dt,
            Calendar.add_days start (day p) = Ok dt
            /\ Calendar.valid dt = true
            /\ date p = Calendar.strftime dt) actual ->
  actual_filtered (Calendar.strftime now) actual
  = List.filter (on_or_before now) actual.
Proof.
  intros Hnow H. unfold actual_filtered.
  induction H as [| p actual (dt & _ & Hv & Hdate) _ IH]; [reflexivity |].
  assert (E : str_le (date p) (Calendar.strftime now) = on_or_before now p).
  { unfold on_or_before.
    now rewrite Hdate, strptime_strftime, str_le_strftime. }
  cbn [List.filter]. now rewrite E, IH.
Qed.

Lemma path_points_length {A : Type} (num : A -> Q) max_points xs ys
  (points : list (BurndownPoint A)) :
  length (path_points num max_points xs ys points) = length points.
Proof. unfold path_points. apply length_map. Qed.

(** C8. For every sprint and every [now], the chart of the sprint's two
    series draws, as the actual path, exactly the points of the actual
    series dated on or before [now], in order; it leaves the path out when
    there is none; and the ideal path has all the duration + 1 points of the
    ideal series. *)
Theorem actual_path_stops_at_now (now : Calendar.datetime) (sprint : Sprint.t) :
  Calendar.valid now = true ->
  Calendar.valid (Sprint.start_date sprint) = true ->
  Calendar.valid (Sprint.end_date sprint) = true ->
  exists ideal actual xs ys svg,
    calculate_ideal_burndown sprint = Ok ideal
    /\ calculate_actual_burndown sprint = Ok actual
    /\ x_scale sprint = Ok xs
    /\ y_scale sprint = Ok ys
    /\ render_chart now sprint = Ok svg
    /\ let total := Sprint.total_points sprint in
       let drawn := List.filter (on_or_before now) actual in
       (drawn = [] -> actual_path svg = None)
       /\ (drawn <> [] ->
           actual_path svg = Some (path_points inject_Z total xs ys drawn))
       /\ ideal_path svg = path_points (fun r => r) total xs ys ideal
       /\ length (ideal_path svg) = Z.to_nat (Sprint.duration_days sprint + 1).
Proof.
  intros Hnow Hs He.
  pose proof (calculate_ideal_burndown_spec sprint Hs He) as Hideal.
  destruct (calculate_actual_burndown_spec sprint Hs He)
    as (actual & Hactual & _).
  set (ideal := map _ _) in Hideal.
  destruct (generate_svg_chart_ok now sprint ideal actual)
    as (xs & ys & svg & Hx & Hy & Hsvg & _ & Hip & Hap).
  exists ideal, actual, xs, ys, svg.
  split; [exact Hideal |]. split; [exact Hactual |].
  split; [exact Hx |]. split; [exact Hy |].
  split; [unfold render_chart; now rewrite Hideal, Hactual |].
  cbv zeta.
  rewrite (actual_filtered_by_date now (Sprint.start_date sprint)) in Hap.
  - split; [intros E; now rewrite E in Hap |].
    split; [| split; [exact Hip |]].
    + intros Hne. destruct (List.filter _ actual); [congruence | exact Hap].
    + rewrite Hip, path_points_length. subst ideal.
      now rewrite length_map, length_seq.
  - exact Hnow.
  - eapply actual_loop_dates; [| exact Hactual].
    intros day Hin. now apply sprint_days_ok.
Qed.

Lemma actual_path_stops_at_now_witness :
  exists svg,
    render_chart (ymd 2025 1 3) sprint_example = Ok svg
    /\ option_map (@length (Q * Q)) (actual_path svg) = Some 3%nat
    /\ length (ideal_path svg) = 5%nat.
Proof.
  destruct (actual_path_stops_at_now (ymd 2025 1 3) sprint_example
              eq_refl eq_refl eq_refl)
    as (ideal & actual & xs & ys & svg & _ & Hactual & _ & _ & Hsvg
        & _ & Hdrawn & _ & Hlen).
  exists svg. split; [exact Hsvg |]. split; [| exact Hlen].
  assert (E : actual
              = [ mk_point 0 "2025-01-01" 5; mk_point 1 "2025-01-02" 2;
                  mk_point 2 "2025-01-03" 2; mk_point 3 "2025-01-04" 0;
                  mk_point 4 "2025-01-05" 0 ]).
  { vm_compute in Hactual. now injection Hactual. }
  subst actual. rewrite Hdrawn by (vm_compute; discriminate).
  reflexivity.
Defined.
